(** * The SFC delegation bridge of [internal/repository/rpc/sfc_delegation.go]

    A shallow embedding of the [ChainBridge] methods that query the SFC
    staking contract, and the properties of their results.

    Every method is a straight line of calls into collaborators that live
    outside the file (the contract bindings, the ABI packer, the node client
    and the logger).  The collaborators are taken as values of record types
    whose methods either return their Go result tuple or panic; the logger is
    a list of entries that the methods append to and never panics.  Go
    pointers are options ([None] is [nil]) and dereferencing [nil] panics,
    as it does at run time; the receiver [chain] itself is taken to be
    set. *)

From Stdlib Require Import ZArith List String Bool Lia.
From Stdlib.Strings Require Import Byte.
Import ListNotations.
Open Scope Z_scope.

(* ================================================================== *)
(** ** The Go run time: pointers, panics, results, mutable state *)

Module Go.

(** A pointer of type [*T]. [None] is [nil]. *)
Definition ptr (A : Type) : Type := option A.

Definition is_nil {A : Type} (p : ptr A) : bool :=
  match p with None => true | Some _ => false end.

(** The value [recover()] hands back. A run-time nil dereference is told
    apart from a [panic(v)] raised by a collaborator. Every panic carries a
    value: [recover()] is non-nil exactly when the function is panicking. *)
Inductive panic_value : Type :=
| NilDereference
| PanicWith (msg : string).

(** A call either returns its result or unwinds with a panic. *)
Inductive outcome (A : Type) : Type :=
| Returned (a : A)
| Panicked (p : panic_value).
Arguments Returned {A} a.
Arguments Panicked {A} p.

(** Computations over a mutable state [St]. The state survives a panic:
    what was logged or assigned before the panic stays so. *)
Definition M (St A : Type) : Type := St -> outcome A * St.

Definition ret {St A : Type} (a : A) : M St A := fun s => (Returned a, s).

Definition bind {St A B : Type} (m : M St A) (k : A -> M St B) : M St B :=
  fun s =>
    match m s with
    | (Returned a, s') => k a s'
    | (Panicked p, s') => (Panicked p, s')
    end.

Definition modify {St : Type} (f : St -> St) : M St unit :=
  fun s => (Returned tt, f s).

(** A call into a collaborator: it does not touch the local state. *)
Definition external {St A : Type} (o : outcome A) : M St A := fun s => (o, s).

(** [*p], and every method call with a value receiver through [p]. *)
Definition deref {St A : Type} (p : ptr A) : M St A :=
  match p with
  | Some a => ret a
  | None => external (Panicked NilDereference)
  end.

(** The Go [error] interface: a non-nil error is known by its message. *)
Definition error : Type := string.

Definition Error (e : error) : string := e.

(** A function with named results [R] keeps them in its frame, next to the
    state of the world it runs in. *)
Record Frame (R W : Type) : Type := mkFrame { results : R; world : W }.
Arguments mkFrame {R W} results world.
Arguments results {R W} f.
Arguments world {R W} f.

Definition assign {R W : Type} (f : R -> R) : M (Frame R W) unit :=
  modify (fun fr => mkFrame (f (results fr)) (world fr)).

(** [return r]: the operands are already evaluated, the named results get
    them, and the body ends. *)
Definition return_ {R W : Type} (r : R) : M (Frame R W) unit :=
  assign (fun _ => r).

(** A function whose body is [body], with named results starting at [zero]
    and one deferred closure of the shape
    [func() { if r := recover(); r != nil { handler } }()].
    When the body ends normally [recover()] is nil and the closure does
    nothing.  When the body panics the closure runs [handler]; if that
    ends, the panic is over and the function returns the named results as
    they now are; if the handler panics itself, that panic goes on to the
    caller. *)
Definition with_recover {R W : Type} (zero : R)
           (body : M (Frame R W) unit)
           (handler : panic_value -> M (Frame R W) unit) : M W R :=
  fun w =>
    match body (mkFrame zero w) with
    | (Returned _, fr) => (Returned (results fr), world fr)
    | (Panicked p, fr) =>
        match handler p fr with
        | (Returned _, fr') => (Returned (results fr'), world fr')
        | (Panicked p', fr') => (Panicked p', world fr')
        end
    end.

End Go.

Declare Scope go_scope.
Delimit Scope go_scope with go.
Notation "x <- c ;; k" := (Go.bind c (fun x => k))
  (at level 100, c at next level, right associativity) : go_scope.
Notation "' pat <- c ;; k" := (Go.bind c (fun x => match x with pat => k end))
  (at level 100, pat pattern, c at next level, right associativity) : go_scope.
Notation "c ;; k" := (Go.bind c (fun _ => k))
  (at level 100, right associativity) : go_scope.

(* ================================================================== *)
(** ** [math/big], [common], [hexutil], [fmt] *)

Module big.

(** [big.Int] is an integer of any size. *)
Definition Int : Type := Z.

(** [Uint64] on a [*Int]: the low 64 bits of the magnitude, which is what
    the library computes also for a number that does not fit [uint64];
    through a nil pointer it panics. *)
Definition low64 (x : Int) : Z := Z.abs x mod 2 ^ 64.

Definition Uint64 {St : Type} (p : Go.ptr Int) : Go.M St Z :=
  (x <- Go.deref p ;; Go.ret (low64 x))%go.

(** [new(big.Int).SetBytes(buf)]: [buf] read as a big-endian unsigned
    number. A nil slice is the empty one. *)
Definition SetBytes (buf : list byte) : Int :=
  fold_left (fun acc b => acc * 256 + Z.of_N (Byte.to_N b)) buf 0.

End big.

Module common.

(** [common.Address] is [[20]byte]. *)
Definition Address : Type := list byte.

End common.

Module hexutil.

(** [hexutil.Big] is [big.Int] under another name; the conversions
    [hexutil.Big(x)] and [ToInt] change nothing. *)
Definition Big : Type := big.Int.

Definition ToInt (b : Go.ptr Big) : Go.ptr big.Int := b.

(** [hexutil.Uint64] is [uint64]. *)
Definition Uint64 : Type := Z.

End hexutil.

Module fmt.

Definition Errorf (msg : string) : Go.error := msg.

End fmt.

(* ================================================================== *)
(** ** The logger *)

Module logger.

Inductive level : Type := DEBUG | ERROR | CRITICAL.

(** What a format verb is given. [AddressString a] is [a.String()],
    [BigString v] is the [String()] of a [hexutil.Big]. *)
Inductive arg : Type :=
| AddressString (a : common.Address)
| BigString (v : hexutil.Big)
| U64 (n : Z)
| Len (n : nat)
| Str (s : string)
| Err (e : Go.ptr Go.error).

Record entry : Type := mkEntry { lvl : level; format : string; args : list arg }.

Definition Log : Type := list entry.

(** States that carry the log. *)
Class Logging (St : Type) : Type := record : entry -> St -> St.

#[global] Instance Logging_Log : Logging Log := fun e l => l ++ [e].

#[global] Instance Logging_Frame {R : Type} : Logging (Go.Frame R Log) :=
  fun e fr => Go.mkFrame (Go.results fr) (Go.world fr ++ [e]).

Definition Debugf {St} `{Logging St} (f : string) (a : list arg) : Go.M St unit :=
  Go.modify (record (mkEntry DEBUG f a)).
Definition Errorf {St} `{Logging St} (f : string) (a : list arg) : Go.M St unit :=
  Go.modify (record (mkEntry ERROR f a)).
Definition Criticalf {St} `{Logging St} (f : string) (a : list arg) : Go.M St unit :=
  Go.modify (record (mkEntry CRITICAL f a)).

(** [addr.String()] through a [*common.Address]: [String] has a value
    receiver, so the pointer is dereferenced. *)
Definition addr_String {St} (addr : Go.ptr common.Address) : Go.M St arg :=
  (a <- Go.deref addr ;; Go.ret (AddressString a))%go.

(** [valID.Uint64()] through a [*big.Int]. *)
Definition big_Uint64 {St} (v : Go.ptr big.Int) : Go.M St arg :=
  (n <- big.Uint64 v ;; Go.ret (U64 n))%go.

(** [valID.String()] through a [*hexutil.Big]: the encoder reads the
    number behind the pointer, so a nil pointer panics. *)
Definition hex_String {St} (v : Go.ptr hexutil.Big) : Go.M St arg :=
  (n <- Go.deref v ;; Go.ret (BigString n))%go.

End logger.

(* ================================================================== *)
(** ** The collaborators: node client, ABI, contract bindings *)

Module ethereum.

(** The fields of [ethereum.CallMsg] the bridge fills in; the others stay
    at their zero value. *)
Record CallMsg : Type := mkCallMsg {
  From : common.Address;
  To : Go.ptr common.Address;
  Data : list byte
}.

End ethereum.

Module ethclient.

(** [CallContract(ctx, msg, blockNumber)]: the raw answer of a read-only
    call, or an error. The context is always [context.Background()]. *)
Record Client : Type := mkClient {
  CallContract : ethereum.CallMsg -> Go.ptr big.Int ->
                 Go.outcome (list byte * Go.ptr Go.error)
}.

End ethclient.

Module abi.

(** [Pack(name, args...)]: the call data of method [name], or an error. *)
Record ABI : Type := mkABI {
  Pack : string -> list (Go.ptr big.Int) ->
         Go.outcome (list byte * Go.ptr Go.error)
}.

End abi.

Module bind.

Record CallOpts : Type := mkCallOpts {
  Pending : bool;
  From : common.Address;
  BlockNumber : Go.ptr big.Int
}.

End bind.

Module contracts.

(** The struct [GetLockupInfo] returns: four [*big.Int]. *)
Record LockupInfo : Type := mkLockupInfo {
  LockedStake : Go.ptr big.Int;
  FromEpoch : Go.ptr big.Int;
  EndTime : Go.ptr big.Int;
  Duration : Go.ptr big.Int
}.

(** A generated read method [M(opts, delegator, validatorID) (A, error)]. *)
Definition read (A : Type) : Type :=
  Go.ptr bind.CallOpts -> common.Address -> Go.ptr big.Int ->
  Go.outcome (A * Go.ptr Go.error).

Record SfcContract : Type := mkSfcContract {
  GetStake : read (Go.ptr big.Int);
  GetLockedStake : read (Go.ptr big.Int);
  GetUnlockedStake : read (Go.ptr big.Int);
  PendingRewards : read (Go.ptr big.Int);
  GetLockupInfo : read LockupInfo
}.

Record SfcTokenizer : Type := mkSfcTokenizer {
  OutstandingSCoin : read (Go.ptr big.Int);
  AllowedToWithdrawStake : read bool
}.

End contracts.

(* ================================================================== *)
(** ** The records handed to the caller *)

Module types.

Record PendingRewards : Type := mkPendingRewards {
  Address : common.Address;
  Staker : hexutil.Big;
  Amount : hexutil.Big
}.

Definition set_Amount (x : hexutil.Big) (pr : PendingRewards) : PendingRewards :=
  {| Address := Address pr; Staker := Staker pr; Amount := x |}.

Record DelegationLock : Type := mkDelegationLock {
  LockedAmount : hexutil.Big;
  LockedFromEpoch : hexutil.Uint64;
  LockedUntil : hexutil.Uint64;
  Duration : hexutil.Uint64
}.

(** [types.DelegationLock{}] *)
Definition zero_DelegationLock : DelegationLock :=
  {| LockedAmount := 0; LockedFromEpoch := 0; LockedUntil := 0; Duration := 0 |}.

End types.

(* ================================================================== *)
(** ** The bridge *)

Module rpc.

Import Go.
Import logger.
Open Scope go_scope.
Open Scope string_scope.

Record SfcConfig : Type := mkSfcConfig {
  SFCContract : common.Address;
  TokenizerContract : common.Address
}.

(** [ChainBridge]: the node client, the configuration, and the three
    accessors the methods below go through, each of which returns its
    pointer or panics. The logger is the state the methods run in. *)
Record ChainBridge : Type := mkChainBridge {
  eth : ethclient.Client;
  sfcConfig : SfcConfig;
  SfcContract : outcome (ptr contracts.SfcContract);
  SfcAbi : outcome (ptr abi.ABI);
  DefaultCallOpts : outcome (ptr bind.CallOpts)
}.

Section Bridge.

(** [contracts.NewSfcTokenizer(address, backend)] *)
Variable NewSfcTokenizer :
  common.Address -> ethclient.Client ->
  outcome (ptr contracts.SfcTokenizer * ptr error).

Variable chain : ChainBridge.

(** [chain.SfcContract().method(chain.DefaultCallOpts(), *addr, valID)] *)
Definition SfcContract_read {St A : Type}
           (method : contracts.SfcContract -> contracts.read A)
           (addr : ptr common.Address) (valID : ptr big.Int)
  : M St (A * ptr error) :=
  c <- external (SfcContract chain) ;;
  opts <- external (DefaultCallOpts chain) ;;
  a <- deref addr ;;
  sfc <- deref c ;;
  external (method sfc opts a valID).

Definition AmountStaked (addr : ptr common.Address) (valID : ptr big.Int)
  : M Log (ptr big.Int * ptr error) :=
  s <- addr_String addr ;;
  n <- big_Uint64 valID ;;
  Debugf "verifying amount staked by %s to %d" [s; n] ;;
  SfcContract_read contracts.GetStake addr valID.

Definition AmountStakeLocked (addr : ptr common.Address) (valID : ptr big.Int)
  : M Log (ptr big.Int * ptr error) :=
  SfcContract_read contracts.GetLockedStake addr valID.

Definition AmountStakeUnlocked (addr : ptr common.Address) (valID : ptr big.Int)
  : M Log (ptr big.Int * ptr error) :=
  SfcContract_read contracts.GetUnlockedStake addr valID.

(** The arguments of the three "penalty for unlocking" messages. *)
Definition penalty_args (addr : ptr common.Address) (valID amount : ptr big.Int)
  : M Log (list arg) :=
  n <- big_Uint64 amount ;;
  s <- addr_String addr ;;
  v <- big_Uint64 valID ;;
  ret [n; s; v].

Definition StakeUnlockPenalty (addr : ptr common.Address)
           (valID amount : ptr big.Int)
  : M Log (ptr big.Int * ptr error) :=
  sfcAbi <- external (SfcAbi chain) ;;
  packer <- deref sfcAbi ;;
  '(cd, err) <- external (abi.Pack packer "unlockStake" [valID; amount]) ;;
  match err with
  | Some e =>
      l <- penalty_args addr valID amount ;;
      Errorf "penalty for unlocking %d of %s to %d not available; %s"
             (l ++ [Str (Error e)]) ;;
      ret (None, err)
  | None =>
      a <- deref addr ;;
      '(data, err) <- external
         (ethclient.CallContract (eth chain)
            (ethereum.mkCallMsg a (Some (SFCContract (sfcConfig chain))) cd)
            None) ;;
      match err with
      | Some e =>
          l <- penalty_args addr valID amount ;;
          Errorf "penalty for unlocking %d of %s to %d not available; %s"
                 (l ++ [Str (Error e)]) ;;
          ret (None, err)
      | None =>
          if negb (Nat.eqb (List.length data) 32) then
            l <- penalty_args addr valID amount ;;
            Errorf "penalty for unlocking %d of %s to %d response not valid; expected 32 bytes, received %d bytes"
                   (l ++ [Len (List.length data)]) ;;
            ret (None, err)
          else
            ret (Some (big.SetBytes data), None)
      end
  end.

Definition PendingRewards (addr : ptr common.Address) (valID : ptr big.Int)
  : M Log (ptr types.PendingRewards * ptr error) :=
  a <- deref addr ;;
  v <- deref valID ;;
  let pr := types.mkPendingRewards a v 0 in
  '(amo, err) <- SfcContract_read contracts.PendingRewards addr valID ;;
  match err with
  | Some e =>
      s <- addr_String addr ;;
      n <- big_Uint64 valID ;;
      Criticalf "can not calculate pending rewards of %s to %d; %s"
                [s; n; Str (Error e)] ;;
      ret (Some pr, None)
  | None =>
      x <- deref amo ;;
      ret (Some (types.set_Amount x pr), None)
  end.

(** The named results [(dll, err)] of [DelegationLock]. *)
Definition DelegationLock_results : Type :=
  (ptr types.DelegationLock * ptr error)%type.

Definition DelegationLock_frame : Type := Frame DelegationLock_results Log.

(** The body of [DelegationLock], under its deferred closure.
    [lock, err := ...] declares [lock] only: [err] is the named result,
    which the call's error is assigned to. *)
Definition DelegationLock_body (addr : ptr common.Address)
           (valID : ptr hexutil.Big) : M DelegationLock_frame unit :=
  '(lock, err) <- SfcContract_read contracts.GetLockupInfo addr
                                   (hexutil.ToInt valID) ;;
  assign (fun r => (fst r, err)) ;;
  match err with
  | Some _ =>
      Errorf "delegation lock query failed; %v" [Err err] ;;
      return_ (None, err)
  | None =>
      if is_nil (contracts.FromEpoch lock) || is_nil (contracts.EndTime lock)
      then
        Errorf "delegation lock details not available" [] ;;
        return_ (None, Some (fmt.Errorf "delegation lock missing"))
      else
        amount <- deref (contracts.LockedStake lock) ;;
        from <- big.Uint64 (contracts.FromEpoch lock) ;;
        till <- big.Uint64 (contracts.EndTime lock) ;;
        duration <- big.Uint64 (contracts.Duration lock) ;;
        return_ (Some (types.mkDelegationLock amount from till duration), None)
  end.

(** What the deferred closure does once [recover()] gave it a panic. *)
Definition DelegationLock_recovered (addr : ptr common.Address)
           (valID : ptr hexutil.Big) (r : panic_value)
  : M DelegationLock_frame unit :=
  s <- addr_String addr ;;
  v <- hex_String valID ;;
  Criticalf "can not get SFC lock status on delegation %s to %d; SFC call panic"
            [s; v] ;;
  assign (fun r => (Some types.zero_DelegationLock, snd r)).

Definition DelegationLock (addr : ptr common.Address) (valID : ptr hexutil.Big)
  : M Log DelegationLock_results :=
  with_recover (None, None)
               (DelegationLock_body addr valID)
               (DelegationLock_recovered addr valID).

Definition DelegationOutstandingSCoin (addr : ptr common.Address)
           (valID : ptr big.Int) : M Log (ptr big.Int * ptr error) :=
  s <- addr_String addr ;;
  n <- big_Uint64 valID ;;
  Debugf "checking outstanding of %s to %d" [s; n] ;;
  '(contract, err) <- external
     (NewSfcTokenizer (TokenizerContract (sfcConfig chain)) (eth chain)) ;;
  match err with
  | Some e =>
      Criticalf "failed to instantiate SFC Tokenizer contract; %s"
                [Str (Error e)] ;;
      ret (None, err)
  | None =>
      opts <- external (DefaultCallOpts chain) ;;
      a <- deref addr ;;
      tokenizer <- deref contract ;;
      external (contracts.OutstandingSCoin tokenizer opts a valID)
  end.

Definition DelegationTokenizerUnlocked (addr : ptr common.Address)
           (valID : ptr big.Int) : M Log (bool * ptr error) :=
  s <- addr_String addr ;;
  n <- big_Uint64 valID ;;
  Debugf "checking SFC tokenizer lock of %s to %d" [s; n] ;;
  '(contract, err) <- external
     (NewSfcTokenizer (TokenizerContract (sfcConfig chain)) (eth chain)) ;;
  match err with
  | Some e =>
      Criticalf "failed to instantiate SFC Tokenizer contract: %s"
                [Str (Error e)] ;;
      ret (false, err)
  | None =>
      opts <- external (DefaultCallOpts chain) ;;
      a <- deref addr ;;
      tokenizer <- deref contract ;;
      '(lock, err) <- external
         (contracts.AllowedToWithdrawStake tokenizer opts a valID) ;;
      match err with
      | Some e =>
          s <- addr_String addr ;;
          n <- big_Uint64 valID ;;
          Criticalf "failed to get SFC Tokenizer lock status of %s to %d; %s"
                    [s; n; Str (Error e)] ;;
          ret (false, err)
      | None => ret (lock, None)
      end
  end.

End Bridge.

End rpc.

(* ================================================================== *)
(** ** Big-endian reading, as the specification words it *)

Module spec.

(** The unsigned number a byte string denotes when the first byte is the
    most significant one. *)
Fixpoint big_endian_unsigned (buf : list byte) : Z :=
  match buf with
  | [] => 0
  | b :: rest =>
      Z.of_N (Byte.to_N b) * 256 ^ Z.of_nat (List.length rest)
      + big_endian_unsigned rest
  end.

End spec.

(* ================================================================== *)
(** ** Concrete bridges, to run the methods on *)

Module sample.

Import Go.
Open Scope string_scope.

Definition delegator : common.Address := repeat x01 20.
Definition sfc_address : common.Address := repeat xfc 20.
Definition tokenizer_address : common.Address := repeat xc5 20.

Definition opts : bind.CallOpts := bind.mkCallOpts false delegator None.

(** A binding whose amount reads all answer [amount] and whose
    [GetLockupInfo] answers [lockup]. *)
Definition sfc (amount : outcome (ptr big.Int * ptr error))
           (lockup : outcome (contracts.LockupInfo * ptr error))
  : contracts.SfcContract :=
  contracts.mkSfcContract
    (fun _ _ _ => amount) (fun _ _ _ => amount) (fun _ _ _ => amount)
    (fun _ _ _ => amount) (fun _ _ _ => lockup).

(** A node that answers every call with [answer]; packing gives [cd]. *)
Definition bridge (binding : contracts.SfcContract)
           (answer : outcome (list byte * ptr error)) : rpc.ChainBridge :=
  rpc.mkChainBridge
    (ethclient.mkClient (fun _ _ => answer))
    (rpc.mkSfcConfig sfc_address tokenizer_address)
    (Returned (Some binding))
    (Returned (Some (abi.mkABI (fun _ _ => Returned ([x2e; x17; xde; x78], None)))))
    (Returned (Some opts)).

Definition seven : outcome (ptr big.Int * ptr error) := Returned (Some 7, None).

Definition reverted : ptr error := Some "execution reverted".

Definition lockup (stake from till duration : ptr big.Int)
  : outcome (contracts.LockupInfo * ptr error) :=
  Returned (contracts.mkLockupInfo stake from till duration, None).

Definition quiet_bridge : rpc.ChainBridge :=
  bridge (sfc seven (lockup (Some 5) (Some 3) (Some 1700000000) (Some 86400)))
         (Returned ((repeat x00 31 ++ [x2a])%list, None)).

(** A bridge whose [GetLockupInfo] answers [answer]. *)
Definition lock_bridge (answer : outcome (contracts.LockupInfo * ptr error))
  : rpc.ChainBridge :=
  bridge (sfc seven answer) (Returned ([], None)).

(** A bridge whose [GetLockupInfo] panics, as the generated binding does
    when it is handed a nil validator id to pack. *)
Definition faulting_bridge : rpc.ChainBridge :=
  lock_bridge (Panicked (PanicWith "reflect: call of reflect.Value.Type on zero Value")).

(** A tokenizer constructor that fails, and one that gives a binding
    answering [allowed]. *)
Definition no_tokenizer (_ : common.Address) (_ : ethclient.Client)
  : outcome (ptr contracts.SfcTokenizer * ptr error) :=
  Returned (None, Some "no contract code at given address").

Definition tokenizer (allowed : outcome (bool * ptr error))
           (_ : common.Address) (_ : ethclient.Client)
  : outcome (ptr contracts.SfcTokenizer * ptr error) :=
  Returned (Some (contracts.mkSfcTokenizer (fun _ _ _ => seven)
                                           (fun _ _ _ => allowed)), None).

(** A node that panics on every call. *)
Definition dead_client : ethclient.Client :=
  ethclient.mkClient (fun _ _ => Panicked (PanicWith "connection is shut down")).

(** A bridge whose packer refuses the arguments and whose node is dead. *)
Definition unpackable_bridge : rpc.ChainBridge :=
  rpc.mkChainBridge
    dead_client
    (rpc.mkSfcConfig sfc_address tokenizer_address)
    (Returned (Some (sfc seven (lockup (Some 5) (Some 3) (Some 1700000000)
                                       (Some 86400)))))
    (Returned (Some (abi.mkABI
                       (fun _ _ => Returned ([], Some "abi: cannot pack")))))
    (Returned (Some opts)).

(** A bridge none of whose accessors gives anything back. *)
Definition broken_bridge : rpc.ChainBridge :=
  rpc.mkChainBridge
    dead_client
    (rpc.mkSfcConfig sfc_address tokenizer_address)
    (Panicked (PanicWith "no SFC contract"))
    (Panicked (PanicWith "no SFC ABI"))
    (Panicked (PanicWith "no call options")).

End sample.

(* ================================================================== *)
(** ** Properties *)

Import Go.
Open Scope string_scope.
Open Scope list_scope.

(** *** Running a method *)

Lemma bind_Returned {St A B : Type} (m : M St A) (k : A -> M St B) s a s' :
  m s = (Returned a, s') -> bind m k s = k a s'.
Proof. intros H. unfold bind. rewrite H. reflexivity. Qed.

Lemma bind_Panicked {St A B : Type} (m : M St A) (k : A -> M St B) s p s' :
  m s = (Panicked p, s') -> bind m k s = (Panicked p, s').
Proof. intros H. unfold bind. rewrite H. reflexivity. Qed.

(** The shared call path answers what the binding answers. *)
Lemma SfcContract_read_Returned {St A : Type} chain
      (method : contracts.SfcContract -> contracts.read A) sfc opts a valID o
      (s : St) :
  rpc.SfcContract chain = Returned (Some sfc) ->
  rpc.DefaultCallOpts chain = Returned opts ->
  method sfc opts a valID = o ->
  rpc.SfcContract_read chain method (Some a) valID s = (o, s).
Proof.
  intros Hc Ho Hm. unfold rpc.SfcContract_read, bind, external, deref, ret.
  rewrite Hc, Ho, Hm. destruct o; reflexivity.
Qed.

(** Unfolds the monad, leaving the methods' own structure in sight. *)
Ltac go_unfold :=
  cbv beta iota delta
      [bind ret external deref modify assign return_
       logger.addr_String logger.big_Uint64 logger.hex_String big.Uint64
       logger.Debugf logger.Errorf logger.Criticalf logger.record
       logger.Logging_Log logger.Logging_Frame] in *.

(** Splits a run on every call whose outcome it depends on. *)
Ltac go_cases :=
  repeat match goal with
         | H : context [match ?x with _ => _ end] |- _ =>
             destruct x eqn:?; simpl in H
         | H : (_, _) = (_, _) |- _ => inversion H; subst; clear H
         | H : Returned _ = Returned _ |- _ => inversion H; subst; clear H
         | H : Some _ = Some _ |- _ => inversion H; subst; clear H
         | H : Panicked _ = Returned _ |- _ => discriminate H
         | H : Returned _ = Panicked _ |- _ => discriminate H
         end.

(** *** Big-endian decoding *)

Lemma byte_range (b : byte) : 0 <= Z.of_N (Byte.to_N b) < 256.
Proof. pose proof (Byte.to_N_bounded b). lia. Qed.

Lemma SetBytes_from (buf : list byte) (acc : Z) :
  fold_left (fun acc b => acc * 256 + Z.of_N (Byte.to_N b)) buf acc
  = acc * 256 ^ Z.of_nat (List.length buf) + spec.big_endian_unsigned buf.
Proof.
  revert acc. induction buf as [|b rest IH]; intros acc.
  - simpl. lia.
  - cbn [fold_left spec.big_endian_unsigned List.length]. rewrite IH.
    rewrite Nat2Z.inj_succ, Z.pow_succ_r by lia. ring.
Qed.

Lemma SetBytes_big_endian (buf : list byte) :
  big.SetBytes buf = spec.big_endian_unsigned buf.
Proof. unfold big.SetBytes. rewrite SetBytes_from. lia. Qed.

Lemma big_endian_unsigned_range (buf : list byte) :
  0 <= spec.big_endian_unsigned buf < 256 ^ Z.of_nat (List.length buf).
Proof.
  induction buf as [|b rest IH].
  - simpl. lia.
  - cbn [spec.big_endian_unsigned List.length].
    rewrite Nat2Z.inj_succ, Z.pow_succ_r by lia.
    pose proof (byte_range b).
    assert (0 < 256 ^ Z.of_nat (List.length rest)) by (apply Z.pow_pos_nonneg; lia).
    nia.
Qed.

(** *** Stake amounts *)

(** C5. With the contract binding in place, [AmountStaked],
    [AmountStakeLocked] and [AmountStakeUnlocked] return exactly the pair the
    contract read returned: on success the same integer with a nil error, on
    failure the same error. Nothing is computed on the way; [AmountStaked]
    also logs one debug line. *)
Theorem Amount_reads_forward_the_contract_answer :
  forall (chain : rpc.ChainBridge) (sfc : contracts.SfcContract)
         (opts : ptr bind.CallOpts) (a : common.Address) (v : big.Int)
         (valID : ptr big.Int) (amount : ptr big.Int) (err : ptr error)
         (l : logger.Log),
    rpc.SfcContract chain = Returned (Some sfc) ->
    rpc.DefaultCallOpts chain = Returned opts ->
    (contracts.GetStake sfc opts a (Some v) = Returned (amount, err) ->
     rpc.AmountStaked chain (Some a) (Some v) l
     = (Returned (amount, err),
        l ++ [logger.mkEntry logger.DEBUG "verifying amount staked by %s to %d"
                [logger.AddressString a; logger.U64 (big.low64 v)]]))
    /\ (contracts.GetLockedStake sfc opts a valID = Returned (amount, err) ->
        rpc.AmountStakeLocked chain (Some a) valID l = (Returned (amount, err), l))
    /\ (contracts.GetUnlockedStake sfc opts a valID = Returned (amount, err) ->
        rpc.AmountStakeUnlocked chain (Some a) valID l = (Returned (amount, err), l)).
Proof.
  intros chain sfc opts a v valID amount err l Hc Ho. repeat split; intros Hr.
  - unfold rpc.AmountStaked.
    erewrite bind_Returned by reflexivity.
    erewrite bind_Returned by reflexivity.
    erewrite bind_Returned by reflexivity.
    now apply (SfcContract_read_Returned chain _ sfc opts).
  - now apply (SfcContract_read_Returned chain _ sfc opts).
  - now apply (SfcContract_read_Returned chain _ sfc opts).
Qed.

Lemma Amount_reads_forward_the_contract_answer_witness :
  rpc.AmountStakeLocked sample.quiet_bridge (Some sample.delegator) (Some 1) []
  = (Returned (Some 7, None), []).
Proof.
  apply (Amount_reads_forward_the_contract_answer
           sample.quiet_bridge
           (sample.sfc sample.seven
              (sample.lockup (Some 5) (Some 3) (Some 1700000000) (Some 86400)))
           (Some sample.opts) sample.delegator 1 (Some 1) (Some 7) None []);
    reflexivity.
Defined.

(** *** The unlock penalty *)

(** C6. When packing succeeds, the call succeeds and the answer has 32
    bytes, [StakeUnlockPenalty] returns, with a nil error and nothing
    logged, the number those bytes spell big-endian; it is below 2^256. *)
Theorem StakeUnlockPenalty_decodes_the_word :
  forall (chain : rpc.ChainBridge) (packer : abi.ABI) (a : common.Address)
         (valID amount : ptr big.Int) (cd data : list byte) (l : logger.Log),
    rpc.SfcAbi chain = Returned (Some packer) ->
    abi.Pack packer "unlockStake" [valID; amount] = Returned (cd, None) ->
    ethclient.CallContract (rpc.eth chain)
      (ethereum.mkCallMsg a (Some (rpc.SFCContract (rpc.sfcConfig chain))) cd)
      None = Returned (data, None) ->
    List.length data = 32%nat ->
    rpc.StakeUnlockPenalty chain (Some a) valID amount l
    = (Returned (Some (spec.big_endian_unsigned data), None), l)
    /\ 0 <= spec.big_endian_unsigned data < 2 ^ 256.
Proof.
  intros chain packer a valID amount cd data l Habi Hpack Hcall Hlen. split.
  - unfold rpc.StakeUnlockPenalty. go_unfold.
    rewrite Habi; cbn. rewrite Hpack; cbn. rewrite Hcall; cbn.
    rewrite Hlen; cbn. now rewrite <- SetBytes_big_endian.
  - pose proof (big_endian_unsigned_range data) as H.
    rewrite Hlen in H. change (256 ^ Z.of_nat 32) with (2 ^ 256) in H. exact H.
Qed.

Lemma StakeUnlockPenalty_decodes_the_word_witness :
  rpc.StakeUnlockPenalty sample.quiet_bridge (Some sample.delegator)
                         (Some 1) (Some 2) []
  = (Returned (Some 42, None), []).
Proof.
  apply (StakeUnlockPenalty_decodes_the_word
           sample.quiet_bridge
           (abi.mkABI (fun _ _ => Returned ([x2e; x17; xde; x78], None)))
           sample.delegator (Some 1) (Some 2) [x2e; x17; xde; x78]
           (repeat x00 31 ++ [x2a])%list []);
    reflexivity.
Defined.

(** C1. When packing and the call both succeed and the answer does not
    have 32 bytes, [StakeUnlockPenalty] logs the complaint and returns
    [nil, err] where [err] is the nil error of the call that just
    succeeded: the caller gets a nil value together with a nil error. With
    [valID] and [amount] set the whole result is known; and whatever the
    pointers are, no such run returns a non-nil error. *)
Theorem StakeUnlockPenalty_wrong_length_gives_nil_error :
  forall (chain : rpc.ChainBridge) (packer : abi.ABI) (a : common.Address)
         (valID amount : ptr big.Int) (cd data : list byte) (l : logger.Log),
    rpc.SfcAbi chain = Returned (Some packer) ->
    abi.Pack packer "unlockStake" [valID; amount] = Returned (cd, None) ->
    ethclient.CallContract (rpc.eth chain)
      (ethereum.mkCallMsg a (Some (rpc.SFCContract (rpc.sfcConfig chain))) cd)
      None = Returned (data, None) ->
    List.length data <> 32%nat ->
    (forall v m, valID = Some v -> amount = Some m ->
       rpc.StakeUnlockPenalty chain (Some a) valID amount l
       = (Returned (None, None),
          l ++ [logger.mkEntry logger.ERROR
                  "penalty for unlocking %d of %s to %d response not valid; expected 32 bytes, received %d bytes"
                  [logger.U64 (big.low64 m); logger.AddressString a;
                   logger.U64 (big.low64 v); logger.Len (List.length data)]]))
    /\ (forall r e l',
          rpc.StakeUnlockPenalty chain (Some a) valID amount l
          = (Returned (r, e), l') -> r = None /\ e = None).
Proof.
  intros chain packer a valID amount cd data l Habi Hpack Hcall Hlen.
  apply Nat.eqb_neq in Hlen.
  assert (Hrun : rpc.StakeUnlockPenalty chain (Some a) valID amount l
                 = bind (rpc.penalty_args (Some a) valID amount)
                     (fun args =>
                        bind (logger.Errorf
                                "penalty for unlocking %d of %s to %d response not valid; expected 32 bytes, received %d bytes"
                                (args ++ [logger.Len (List.length data)]))
                             (fun _ => ret (None, None))) l).
  { unfold rpc.StakeUnlockPenalty.
    unfold bind at 1, external at 1. rewrite Habi.
    unfold bind at 1, deref at 1, ret at 1.
    unfold bind at 1, external at 1. rewrite Hpack.
    unfold bind at 1, deref at 1, ret at 1.
    unfold bind at 1, external at 1. rewrite Hcall.
    rewrite Hlen. reflexivity. }
  rewrite Hrun. split.
  - intros v m -> ->. reflexivity.
  - intros r e l' H. unfold rpc.penalty_args in H. go_unfold.
    destruct amount, valID; simpl in H; inversion H; auto.
Qed.

Lemma StakeUnlockPenalty_wrong_length_gives_nil_error_witness :
  rpc.StakeUnlockPenalty
    (sample.bridge (sample.sfc sample.seven (Panicked (PanicWith "unused")))
                   (Returned ([], None)))
    (Some sample.delegator) (Some 1) (Some 2) []
  = (Returned (None, None),
     [logger.mkEntry logger.ERROR
        "penalty for unlocking %d of %s to %d response not valid; expected 32 bytes, received %d bytes"
        [logger.U64 2; logger.AddressString sample.delegator;
         logger.U64 1; logger.Len 0]]).
Proof.
  refine (proj1 (StakeUnlockPenalty_wrong_length_gives_nil_error
                   (sample.bridge
                      (sample.sfc sample.seven (Panicked (PanicWith "unused")))
                      (Returned ([], None)))
                   (abi.mkABI (fun _ _ => Returned ([x2e; x17; xde; x78], None)))
                   sample.delegator (Some 1) (Some 2) [x2e; x17; xde; x78] [] []
                   eq_refl eq_refl eq_refl _) 1 2 eq_refl eq_refl).
  simpl. discriminate.
Defined.

(** *** Pending rewards *)

(** C2. [PendingRewards] never returns a non-nil error, whatever its
    arguments and whatever the contract does; and when the contract read
    fails it logs the failure and returns the record prepared beforehand,
    whose amount is zero. *)
Theorem PendingRewards_never_returns_an_error :
  forall (chain : rpc.ChainBridge) (addr : ptr common.Address)
         (valID : ptr big.Int) (l : logger.Log),
    (forall r e l',
        rpc.PendingRewards chain addr valID l = (Returned (r, e), l') ->
        e = None)
    /\ (forall sfc opts a v x e,
          addr = Some a -> valID = Some v ->
          rpc.SfcContract chain = Returned (Some sfc) ->
          rpc.DefaultCallOpts chain = Returned opts ->
          contracts.PendingRewards sfc opts a (Some v) = Returned (x, Some e) ->
          rpc.PendingRewards chain addr valID l
          = (Returned (Some (types.mkPendingRewards a v 0), None),
             l ++ [logger.mkEntry logger.CRITICAL
                     "can not calculate pending rewards of %s to %d; %s"
                     [logger.AddressString a; logger.U64 (big.low64 v);
                      logger.Str e]])).
Proof.
  intros chain addr valID l. split.
  - intros r e l' H. unfold rpc.PendingRewards, rpc.SfcContract_read in H.
    go_unfold. go_cases; reflexivity.
  - intros sfc opts a v x e -> -> Hc Ho Hr. unfold rpc.PendingRewards.
    erewrite bind_Returned by reflexivity.
    erewrite bind_Returned by reflexivity.
    erewrite bind_Returned
      by (apply (SfcContract_read_Returned chain _ sfc opts); eauto).
    reflexivity.
Qed.

Lemma PendingRewards_never_returns_an_error_witness :
  rpc.PendingRewards
    (sample.bridge (sample.sfc (Returned (None, sample.reverted))
                               (Panicked (PanicWith "unused")))
                   (Returned ([], None)))
    (Some sample.delegator) (Some 1) []
  = (Returned (Some (types.mkPendingRewards sample.delegator 1 0), None),
     [logger.mkEntry logger.CRITICAL
        "can not calculate pending rewards of %s to %d; %s"
        [logger.AddressString sample.delegator; logger.U64 1;
         logger.Str "execution reverted"]]).
Proof.
  refine (proj2 (PendingRewards_never_returns_an_error
                   (sample.bridge
                      (sample.sfc (Returned (None, sample.reverted))
                                  (Panicked (PanicWith "unused")))
                      (Returned ([], None)))
                   (Some sample.delegator) (Some 1) [])
                (sample.sfc (Returned (None, sample.reverted))
                            (Panicked (PanicWith "unused")))
                (Some sample.opts) sample.delegator 1 None "execution reverted"
                eq_refl eq_refl eq_refl eq_refl eq_refl).
Defined.

(** C9. Every record [PendingRewards] returns, after a successful read and
    after a failed one alike, has the caller's address in [Address] and the
    caller's validator id in [Staker]. *)
Theorem PendingRewards_carries_the_inputs :
  forall (chain : rpc.ChainBridge) (addr : ptr common.Address)
         (valID : ptr big.Int) (l l' : logger.Log)
         (r : ptr types.PendingRewards) (e : ptr error),
    rpc.PendingRewards chain addr valID l = (Returned (r, e), l') ->
    exists pr, r = Some pr
               /\ addr = Some (types.Address pr)
               /\ valID = Some (types.Staker pr).
Proof.
  intros chain addr valID l l' r e H.
  unfold rpc.PendingRewards, rpc.SfcContract_read in H.
  go_unfold. go_cases; eexists; repeat split.
Qed.

Lemma PendingRewards_carries_the_inputs_witness :
  rpc.PendingRewards sample.quiet_bridge (Some sample.delegator) (Some 1) []
  = (Returned (Some (types.mkPendingRewards sample.delegator 1 7), None), [])
  /\ exists pr, Some (types.mkPendingRewards sample.delegator 1 7) = Some pr
                /\ Some sample.delegator = Some (types.Address pr)
                /\ Some 1 = Some (types.Staker pr).
Proof.
  split; [reflexivity|].
  apply (PendingRewards_carries_the_inputs
           sample.quiet_bridge (Some sample.delegator) (Some 1) [] []
           (Some (types.mkPendingRewards sample.delegator 1 7)) None).
  reflexivity.
Defined.

(** *** The tokenizer lock *)

(** C8. Whenever [DelegationTokenizerUnlocked] returns a non-nil error, be
    it from the tokenizer binding or from the lock query, the boolean next
    to it is [false]. *)
Theorem DelegationTokenizerUnlocked_error_comes_with_false :
  forall (NewSfcTokenizer : common.Address -> ethclient.Client ->
                            outcome (ptr contracts.SfcTokenizer * ptr error))
         (chain : rpc.ChainBridge) (addr : ptr common.Address)
         (valID : ptr big.Int) (l l' : logger.Log) (b : bool) (e : error),
    rpc.DelegationTokenizerUnlocked NewSfcTokenizer chain addr valID l
    = (Returned (b, Some e), l') ->
    b = false.
Proof.
  intros N chain addr valID l l' b e H.
  unfold rpc.DelegationTokenizerUnlocked in H.
  go_unfold. go_cases; reflexivity.
Qed.

Lemma DelegationTokenizerUnlocked_error_comes_with_false_witness :
  rpc.DelegationTokenizerUnlocked
    (sample.tokenizer (Returned (true, sample.reverted)))
    sample.quiet_bridge (Some sample.delegator) (Some 1) []
  = (Returned (false, Some "execution reverted"),
     [logger.mkEntry logger.DEBUG "checking SFC tokenizer lock of %s to %d"
        [logger.AddressString sample.delegator; logger.U64 1];
      logger.mkEntry logger.CRITICAL
        "failed to get SFC Tokenizer lock status of %s to %d; %s"
        [logger.AddressString sample.delegator; logger.U64 1;
         logger.Str "execution reverted"]])
  /\ false = false.
Proof.
  split; [reflexivity|].
  apply (DelegationTokenizerUnlocked_error_comes_with_false
           (sample.tokenizer (Returned (true, sample.reverted)))
           sample.quiet_bridge (Some sample.delegator) (Some 1) []
           [logger.mkEntry logger.DEBUG "checking SFC tokenizer lock of %s to %d"
              [logger.AddressString sample.delegator; logger.U64 1];
            logger.mkEntry logger.CRITICAL
              "failed to get SFC Tokenizer lock status of %s to %d; %s"
              [logger.AddressString sample.delegator; logger.U64 1;
               logger.Str "execution reverted"]]
           false "execution reverted").
  reflexivity.
Defined.

(** *** The delegation lock *)

(** A panic in the body of [DelegationLock] finds the named results and the
    log as they were on entry: nothing is assigned or logged on a path that
    can still panic. *)
Lemma DelegationLock_body_panic_frame chain addr valID l p fr :
  rpc.DelegationLock_body chain addr valID (mkFrame (None, None) l)
  = (Panicked p, fr) ->
  fr = mkFrame (None, None) l.
Proof.
  intros H. unfold rpc.DelegationLock_body, rpc.SfcContract_read in H.
  go_unfold. go_cases; try discriminate; reflexivity.
Qed.

(** The body when the binding answers. *)
Lemma DelegationLock_body_answered chain sfc opts a valID o fr :
  rpc.SfcContract chain = Returned (Some sfc) ->
  rpc.DefaultCallOpts chain = Returned opts ->
  contracts.GetLockupInfo sfc opts a (hexutil.ToInt valID) = o ->
  rpc.DelegationLock_body chain (Some a) valID fr
  = match o with
    | Panicked p => (Panicked p, fr)
    | Returned (lock, err) =>
        bind (assign (fun r => (fst r, err)))
             (fun _ =>
                match err with
                | Some _ =>
                    bind (logger.Errorf "delegation lock query failed; %v"
                                        [logger.Err err])
                         (fun _ => return_ (None, err))
                | None =>
                    if is_nil (contracts.FromEpoch lock)
                       || is_nil (contracts.EndTime lock)
                    then
                      bind (logger.Errorf "delegation lock details not available" [])
                           (fun _ => return_
                                       (None, Some (fmt.Errorf "delegation lock missing")))
                    else
                      bind (deref (contracts.LockedStake lock))
                           (fun amount =>
                              bind (big.Uint64 (contracts.FromEpoch lock))
                                   (fun from =>
                                      bind (big.Uint64 (contracts.EndTime lock))
                                           (fun till =>
                                              bind (big.Uint64 (contracts.Duration lock))
                                                   (fun duration =>
                                                      return_
                                                        (Some (types.mkDelegationLock
                                                                 amount from till duration),
                                                         None)))))
                end) fr
    end.
Proof.
  intros Hc Ho Hm. unfold rpc.DelegationLock_body.
  destruct o as [[lock err]|p].
  - erewrite bind_Returned
      by (apply (SfcContract_read_Returned chain _ sfc opts); eauto).
    reflexivity.
  - erewrite bind_Panicked
      by (apply (SfcContract_read_Returned chain _ sfc opts); eauto).
    reflexivity.
Qed.

(** With both pointers set, the recovery closure runs to its end. *)
Lemma DelegationLock_recovers chain a v l p fr :
  rpc.DelegationLock_body chain (Some a) (Some v) (mkFrame (None, None) l)
  = (Panicked p, fr) ->
  rpc.DelegationLock chain (Some a) (Some v) l
  = (Returned (Some types.zero_DelegationLock, None),
     l ++ [logger.mkEntry logger.CRITICAL
             "can not get SFC lock status on delegation %s to %d; SFC call panic"
             [logger.AddressString a; logger.BigString v]]).
Proof.
  intros H. pose proof (DelegationLock_body_panic_frame _ _ _ _ _ _ H) as ->.
  unfold rpc.DelegationLock, with_recover. rewrite H. reflexivity.
Qed.

(** C4. When [GetLockupInfo] succeeds and [FromEpoch] or [EndTime] is nil,
    [DelegationLock] logs that the details are not available and returns no
    record, with the error "delegation lock missing". *)
Theorem DelegationLock_missing_timing_is_an_error :
  forall (chain : rpc.ChainBridge) (sfc : contracts.SfcContract)
         (opts : ptr bind.CallOpts) (a : common.Address)
         (valID : ptr hexutil.Big) (lock : contracts.LockupInfo)
         (l : logger.Log),
    rpc.SfcContract chain = Returned (Some sfc) ->
    rpc.DefaultCallOpts chain = Returned opts ->
    contracts.GetLockupInfo sfc opts a (hexutil.ToInt valID)
    = Returned (lock, None) ->
    contracts.FromEpoch lock = None \/ contracts.EndTime lock = None ->
    rpc.DelegationLock chain (Some a) valID l
    = (Returned (None, Some "delegation lock missing"),
       l ++ [logger.mkEntry logger.ERROR
               "delegation lock details not available" []]).
Proof.
  intros chain sfc opts a valID lock l Hc Ho Hr Hnil.
  unfold rpc.DelegationLock, with_recover.
  rewrite (DelegationLock_body_answered chain sfc opts a valID _ _ Hc Ho Hr).
  assert (Hb : is_nil (contracts.FromEpoch lock)
               || is_nil (contracts.EndTime lock) = true).
  { destruct Hnil as [-> | ->]; [reflexivity | apply orb_true_r]. }
  go_unfold. rewrite Hb. reflexivity.
Qed.

Lemma DelegationLock_missing_timing_is_an_error_witness :
  rpc.DelegationLock
    (sample.lock_bridge (sample.lockup (Some 5) (Some 3) None (Some 86400)))
    (Some sample.delegator) (Some 1) []
  = (Returned (None, Some "delegation lock missing"),
     [logger.mkEntry logger.ERROR "delegation lock details not available" []]).
Proof.
  apply (DelegationLock_missing_timing_is_an_error
           (sample.lock_bridge
              (sample.lockup (Some 5) (Some 3) None (Some 86400)))
           (sample.sfc sample.seven
                       (sample.lockup (Some 5) (Some 3) None (Some 86400)))
           (Some sample.opts) sample.delegator (Some 1)
           (contracts.mkLockupInfo (Some 5) (Some 3) None (Some 86400)) []);
    try reflexivity.
  right. reflexivity.
Defined.

(** [Uint64] keeps a number that fits 64 bits. *)
Lemma low64_small (x : big.Int) : 0 <= x < 2 ^ 64 -> big.low64 x = x.
Proof.
  intros H. unfold big.low64. rewrite Z.abs_eq by lia. apply Z.mod_small. exact H.
Qed.

(** The run of [DelegationLock] on an answer with all four numbers set. *)
Lemma DelegationLock_assembled chain sfc opts a valID stake from till duration l :
  rpc.SfcContract chain = Returned (Some sfc) ->
  rpc.DefaultCallOpts chain = Returned opts ->
  contracts.GetLockupInfo sfc opts a (hexutil.ToInt valID)
  = Returned (contracts.mkLockupInfo (Some stake) (Some from) (Some till)
                                     (Some duration), None) ->
  rpc.DelegationLock chain (Some a) valID l
  = (Returned (Some (types.mkDelegationLock stake (big.low64 from)
                                            (big.low64 till)
                                            (big.low64 duration)), None), l).
Proof.
  intros Hc Ho Hr. unfold rpc.DelegationLock, with_recover.
  rewrite (DelegationLock_body_answered chain sfc opts a valID _ _ Hc Ho Hr).
  reflexivity.
Qed.

(** C7, as the code has it. When [GetLockupInfo] succeeds and all four
    returned numbers are set, [DelegationLock] returns, with a nil error and
    nothing logged, the record whose locked amount is the returned stake and
    whose epoch, unlock time and duration are the low 64 bits of the
    magnitudes of the returned numbers; they are the returned numbers
    themselves when these fit 64 bits. *)
Theorem DelegationLock_assembles_the_record :
  forall (chain : rpc.ChainBridge) (sfc : contracts.SfcContract)
         (opts : ptr bind.CallOpts) (a : common.Address)
         (valID : ptr hexutil.Big) (stake from till duration : big.Int)
         (l : logger.Log),
    rpc.SfcContract chain = Returned (Some sfc) ->
    rpc.DefaultCallOpts chain = Returned opts ->
    contracts.GetLockupInfo sfc opts a (hexutil.ToInt valID)
    = Returned (contracts.mkLockupInfo (Some stake) (Some from) (Some till)
                                       (Some duration), None) ->
    rpc.DelegationLock chain (Some a) valID l
    = (Returned (Some (types.mkDelegationLock
                         stake (Z.abs from mod 2 ^ 64) (Z.abs till mod 2 ^ 64)
                         (Z.abs duration mod 2 ^ 64)), None), l)
    /\ (0 <= from < 2 ^ 64 -> 0 <= till < 2 ^ 64 -> 0 <= duration < 2 ^ 64 ->
        rpc.DelegationLock chain (Some a) valID l
        = (Returned (Some (types.mkDelegationLock stake from till duration),
                     None), l)).
Proof.
  intros chain sfc opts a valID stake from till duration l Hc Ho Hr.
  pose proof (DelegationLock_assembled chain sfc opts a valID stake from till
                                       duration l Hc Ho Hr) as Hrun.
  split.
  - exact Hrun.
  - intros Hf Ht Hd. rewrite Hrun.
    rewrite (low64_small from Hf), (low64_small till Ht),
      (low64_small duration Hd).
    reflexivity.
Qed.

Lemma DelegationLock_assembles_the_record_witness :
  rpc.DelegationLock sample.quiet_bridge (Some sample.delegator) (Some 1) []
  = (Returned (Some (types.mkDelegationLock 5 3 1700000000 86400), None), []).
Proof.
  refine (proj2 (DelegationLock_assembles_the_record
                   sample.quiet_bridge
                   (sample.sfc sample.seven
                      (sample.lockup (Some 5) (Some 3) (Some 1700000000)
                                     (Some 86400)))
                   (Some sample.opts) sample.delegator (Some 1)
                   5 3 1700000000 86400 [] eq_refl eq_refl eq_refl) _ _ _);
    lia.
Defined.

(** C7 as stated fails on a number that needs more than 64 bits: the
    contract answers a duration of 2^64 with both timing fields set, and the
    record returned without error has duration 0. *)
Lemma DelegationLock_duration_is_cut_to_64_bits :
  contracts.GetLockupInfo
    (sample.sfc sample.seven
       (sample.lockup (Some 5) (Some 3) (Some 1700000000) (Some (2 ^ 64))))
    (Some sample.opts) sample.delegator (Some 1)
  = Returned (contracts.mkLockupInfo (Some 5) (Some 3) (Some 1700000000)
                                     (Some (2 ^ 64)), None)
  /\ rpc.DelegationLock
       (sample.lock_bridge
          (sample.lockup (Some 5) (Some 3) (Some 1700000000) (Some (2 ^ 64))))
       (Some sample.delegator) (Some 1) []
     = (Returned (Some (types.mkDelegationLock 5 3 1700000000 0), None), [])
  /\ types.Duration (types.mkDelegationLock 5 3 1700000000 0) <> 2 ^ 64.
Proof.
  split; [reflexivity|]. split; [reflexivity|]. simpl. lia.
Qed.

(** C3, as the code has it. With the address and the validator id both set,
    a panic anywhere in the body of [DelegationLock] is recovered: the
    closure logs it and the caller gets the zero record with a nil error.
    That covers a panic of the [GetLockupInfo] call itself. *)
Theorem DelegationLock_recovers_with_zero_record :
  forall (chain : rpc.ChainBridge) (a : common.Address) (v : hexutil.Big)
         (l : logger.Log),
    (forall p fr,
        rpc.DelegationLock_body chain (Some a) (Some v) (mkFrame (None, None) l)
        = (Panicked p, fr) ->
        rpc.DelegationLock chain (Some a) (Some v) l
        = (Returned (Some types.zero_DelegationLock, None),
           l ++ [logger.mkEntry logger.CRITICAL
                   "can not get SFC lock status on delegation %s to %d; SFC call panic"
                   [logger.AddressString a; logger.BigString v]]))
    /\ (forall sfc opts p,
          rpc.SfcContract chain = Returned (Some sfc) ->
          rpc.DefaultCallOpts chain = Returned opts ->
          contracts.GetLockupInfo sfc opts a (Some v) = Panicked p ->
          rpc.DelegationLock chain (Some a) (Some v) l
          = (Returned (Some types.zero_DelegationLock, None),
             l ++ [logger.mkEntry logger.CRITICAL
                     "can not get SFC lock status on delegation %s to %d; SFC call panic"
                     [logger.AddressString a; logger.BigString v]])).
Proof.
  intros chain a v l. split.
  - intros p fr H. exact (DelegationLock_recovers chain a v l p fr H).
  - intros sfc opts p Hc Ho Hr.
    apply (DelegationLock_recovers chain a v l p (mkFrame (None, None) l)).
    rewrite (DelegationLock_body_answered chain sfc opts a (Some v) _ _ Hc Ho Hr).
    reflexivity.
Qed.

Lemma DelegationLock_recovers_with_zero_record_witness :
  rpc.DelegationLock sample.faulting_bridge (Some sample.delegator) (Some 1) []
  = (Returned (Some types.zero_DelegationLock, None),
     [logger.mkEntry logger.CRITICAL
        "can not get SFC lock status on delegation %s to %d; SFC call panic"
        [logger.AddressString sample.delegator; logger.BigString 1]]).
Proof.
  refine (proj2 (DelegationLock_recovers_with_zero_record
                   sample.faulting_bridge sample.delegator 1 [])
                (sample.sfc sample.seven
                   (Panicked (PanicWith "reflect: call of reflect.Value.Type on zero Value")))
                (Some sample.opts)
                (PanicWith "reflect: call of reflect.Value.Type on zero Value")
                eq_refl eq_refl eq_refl).
Defined.

(** C3 as stated fails when the validator id is nil: the [GetLockupInfo]
    call panics, the closure recovers, and then panics itself on
    [valID.String()], so the caller gets a panic and no record. *)
Lemma DelegationLock_nil_valID_panic_escapes :
  contracts.GetLockupInfo
    (sample.sfc sample.seven
       (Panicked (PanicWith "reflect: call of reflect.Value.Type on zero Value")))
    (Some sample.opts) sample.delegator (hexutil.ToInt None)
  = Panicked (PanicWith "reflect: call of reflect.Value.Type on zero Value")
  /\ rpc.DelegationLock sample.faulting_bridge (Some sample.delegator) None []
     = (Panicked NilDereference, []).
Proof. split; reflexivity. Qed.

(** C10. Whenever the body of [DelegationLock] panics and the function still
    returns, it returns the zero record with a nil error. A nil
    [LockedStake] next to set timing fields is such a run. A successful
    query whose four numbers are zero returns the very same pair, so the
    returned values do not tell the two apart. *)
Theorem DelegationLock_recovered_error_is_nil :
  (forall (chain : rpc.ChainBridge) (addr : ptr common.Address)
          (valID : ptr hexutil.Big) (l l' : logger.Log) p fr res,
      rpc.DelegationLock_body chain addr valID (mkFrame (None, None) l)
      = (Panicked p, fr) ->
      rpc.DelegationLock chain addr valID l = (Returned res, l') ->
      res = (Some types.zero_DelegationLock, None))
  /\ (forall (chain : rpc.ChainBridge) sfc opts (a : common.Address)
             (v : hexutil.Big) from till duration (l : logger.Log),
         rpc.SfcContract chain = Returned (Some sfc) ->
         rpc.DefaultCallOpts chain = Returned opts ->
         contracts.GetLockupInfo sfc opts a (Some v)
         = Returned (contracts.mkLockupInfo None (Some from) (Some till)
                                            duration, None) ->
         rpc.DelegationLock_body chain (Some a) (Some v) (mkFrame (None, None) l)
         = (Panicked NilDereference, mkFrame (None, None) l)
         /\ rpc.DelegationLock chain (Some a) (Some v) l
            = (Returned (Some types.zero_DelegationLock, None),
               l ++ [logger.mkEntry logger.CRITICAL
                       "can not get SFC lock status on delegation %s to %d; SFC call panic"
                       [logger.AddressString a; logger.BigString v]]))
  /\ (forall (chain : rpc.ChainBridge) sfc opts (a : common.Address)
             (valID : ptr hexutil.Big) (l : logger.Log),
         rpc.SfcContract chain = Returned (Some sfc) ->
         rpc.DefaultCallOpts chain = Returned opts ->
         contracts.GetLockupInfo sfc opts a (hexutil.ToInt valID)
         = Returned (contracts.mkLockupInfo (Some 0) (Some 0) (Some 0) (Some 0),
                     None) ->
         rpc.DelegationLock chain (Some a) valID l
         = (Returned (Some types.zero_DelegationLock, None), l)).
Proof.
  split; [|split].
  - intros chain addr valID l l' p fr res Hbody Hrun.
    pose proof (DelegationLock_body_panic_frame _ _ _ _ _ _ Hbody) as ->.
    unfold rpc.DelegationLock, with_recover in Hrun. rewrite Hbody in Hrun.
    unfold rpc.DelegationLock_recovered in Hrun. go_unfold.
    destruct addr, valID; simpl in Hrun; inversion Hrun; reflexivity.
  - intros chain sfc opts a v from till duration l Hc Ho Hr.
    assert (Hbody : rpc.DelegationLock_body chain (Some a) (Some v)
                                            (mkFrame (None, None) l)
                    = (Panicked NilDereference, mkFrame (None, None) l)).
    { rewrite (DelegationLock_body_answered chain sfc opts a (Some v) _ _
                                            Hc Ho Hr).
      reflexivity. }
    split; [exact Hbody|].
    exact (DelegationLock_recovers chain a v l _ _ Hbody).
  - intros chain sfc opts a valID l Hc Ho Hr.
    exact (DelegationLock_assembled chain sfc opts a valID 0 0 0 0 l Hc Ho Hr).
Qed.

Lemma DelegationLock_recovered_error_is_nil_witness :
  rpc.DelegationLock
    (sample.lock_bridge (sample.lockup None (Some 3) (Some 1700000000)
                                       (Some 86400)))
    (Some sample.delegator) (Some 1) []
  = (Returned (Some types.zero_DelegationLock, None),
     [logger.mkEntry logger.CRITICAL
        "can not get SFC lock status on delegation %s to %d; SFC call panic"
        [logger.AddressString sample.delegator; logger.BigString 1]]).
Proof.
  refine (proj2 (proj1 (proj2 DelegationLock_recovered_error_is_nil)
                       (sample.lock_bridge
                          (sample.lockup None (Some 3) (Some 1700000000)
                                         (Some 86400)))
                       (sample.sfc sample.seven
                          (sample.lockup None (Some 3) (Some 1700000000)
                                         (Some 86400)))
                       (Some sample.opts) sample.delegator 1 3 1700000000
                       (Some 86400) [] eq_refl eq_refl eq_refl)).
Defined.

(* ================================================================== *)
(** ** Further properties of the bridge *)


(** Splits the run in [H] on every call whose outcome it depends on,
    innermost call first, and drops the cases that cannot be. *)
Ltac go_split H :=
  repeat first
    [ discriminate H
    | match type of H with
      | context [match ?x with _ => _ end] =>
          lazymatch x with
          | context [match _ with _ => _ end] => fail
          | _ => destruct x eqn:?; cbn in H
          end
      end ].

(** Runs the goal one call further, with the call's outcome [H]. *)
Ltac go_step H := unfold ptr in *; rewrite H; cbn.

(** *** The unlock penalty, when something fails *)

(** X1. When packing the call fails, [StakeUnlockPenalty] logs the failure
    and returns the packer's error with a nil value; the node is not
    called. *)
Theorem StakeUnlockPenalty_pack_error_is_returned :
  forall (chain : rpc.ChainBridge) (packer : abi.ABI) (a : common.Address)
         (v m : big.Int) (cd : list byte) (e : error) (l : logger.Log),
    rpc.SfcAbi chain = Returned (Some packer) ->
    abi.Pack packer "unlockStake" [Some v; Some m] = Returned (cd, Some e) ->
    rpc.StakeUnlockPenalty chain (Some a) (Some v) (Some m) l
    = (Returned (None, Some e),
       l ++ [logger.mkEntry logger.ERROR
               "penalty for unlocking %d of %s to %d not available; %s"
               [logger.U64 (big.low64 m); logger.AddressString a;
                logger.U64 (big.low64 v); logger.Str e]]).
Proof.
  intros chain packer a v m cd e l Habi Hpack.
  unfold rpc.StakeUnlockPenalty, rpc.penalty_args. go_unfold.
  go_step Habi. go_step Hpack. reflexivity.
Qed.

Lemma StakeUnlockPenalty_pack_error_is_returned_witness :
  rpc.StakeUnlockPenalty sample.unpackable_bridge (Some sample.delegator)
                         (Some 1) (Some 2) []
  = (Returned (None, Some "abi: cannot pack"),
     [logger.mkEntry logger.ERROR
        "penalty for unlocking %d of %s to %d not available; %s"
        [logger.U64 2; logger.AddressString sample.delegator; logger.U64 1;
         logger.Str "abi: cannot pack"]]).
Proof.
  apply (StakeUnlockPenalty_pack_error_is_returned
           sample.unpackable_bridge
           (abi.mkABI (fun _ _ => Returned ([], Some "abi: cannot pack")))
           sample.delegator 1 2 [] "abi: cannot pack" []);
    reflexivity.
Defined.

(** X2. When packing succeeds and the node answers the call with an error,
    [StakeUnlockPenalty] logs the failure and returns that error with a nil
    value, whatever bytes came with it. *)
Theorem StakeUnlockPenalty_call_error_is_returned :
  forall (chain : rpc.ChainBridge) (packer : abi.ABI) (a : common.Address)
         (v m : big.Int) (cd data : list byte) (e : error) (l : logger.Log),
    rpc.SfcAbi chain = Returned (Some packer) ->
    abi.Pack packer "unlockStake" [Some v; Some m] = Returned (cd, None) ->
    ethclient.CallContract (rpc.eth chain)
      (ethereum.mkCallMsg a (Some (rpc.SFCContract (rpc.sfcConfig chain))) cd)
      None = Returned (data, Some e) ->
    rpc.StakeUnlockPenalty chain (Some a) (Some v) (Some m) l
    = (Returned (None, Some e),
       l ++ [logger.mkEntry logger.ERROR
               "penalty for unlocking %d of %s to %d not available; %s"
               [logger.U64 (big.low64 m); logger.AddressString a;
                logger.U64 (big.low64 v); logger.Str e]]).
Proof.
  intros chain packer a v m cd data e l Habi Hpack Hcall.
  unfold rpc.StakeUnlockPenalty, rpc.penalty_args. go_unfold.
  go_step Habi. go_step Hpack. go_step Hcall. reflexivity.
Qed.

Lemma StakeUnlockPenalty_call_error_is_returned_witness :
  rpc.StakeUnlockPenalty
    (sample.bridge (sample.sfc sample.seven (Panicked (PanicWith "unused")))
                   (Returned (repeat x00 32, sample.reverted)))
    (Some sample.delegator) (Some 1) (Some 2) []
  = (Returned (None, Some "execution reverted"),
     [logger.mkEntry logger.ERROR
        "penalty for unlocking %d of %s to %d not available; %s"
        [logger.U64 2; logger.AddressString sample.delegator; logger.U64 1;
         logger.Str "execution reverted"]]).
Proof.
  apply (StakeUnlockPenalty_call_error_is_returned
           (sample.bridge
              (sample.sfc sample.seven (Panicked (PanicWith "unused")))
              (Returned (repeat x00 32, sample.reverted)))
           (abi.mkABI (fun _ _ => Returned ([x2e; x17; xde; x78], None)))
           sample.delegator 1 2 [x2e; x17; xde; x78] (repeat x00 32)
           "execution reverted" []);
    reflexivity.
Defined.

(** X3. Whenever [StakeUnlockPenalty] returns a value, the error next to it
    is nil, the value is a number below 2^256, and nothing was logged. *)
Theorem StakeUnlockPenalty_value_comes_alone :
  forall (chain : rpc.ChainBridge) (addr : ptr common.Address)
         (valID amount : ptr big.Int) (l l' : logger.Log)
         (n : big.Int) (e : ptr error),
    rpc.StakeUnlockPenalty chain addr valID amount l
    = (Returned (Some n, e), l') ->
    e = None /\ 0 <= n < 2 ^ 256 /\ l' = l.
Proof.
  intros chain addr valID amount l l' n e H.
  unfold rpc.StakeUnlockPenalty, rpc.penalty_args in H. go_unfold.
  go_split H. inversion H; subst; clear H.
  match goal with
  | Hlen : negb (Nat.eqb (List.length ?d) 32) = false |- _ =>
      apply negb_false_iff, Nat.eqb_eq in Hlen;
      pose proof (big_endian_unsigned_range d) as Hr;
      rewrite Hlen in Hr; change (256 ^ Z.of_nat 32) with (2 ^ 256) in Hr;
      rewrite <- SetBytes_big_endian in Hr
  end.
  repeat split; try reflexivity; apply Hr.
Qed.

Lemma StakeUnlockPenalty_value_comes_alone_witness :
  (None : ptr error) = None /\ 0 <= 42 < 2 ^ 256 /\ (@nil logger.entry) = [].
Proof.
  apply (StakeUnlockPenalty_value_comes_alone
           sample.quiet_bridge (Some sample.delegator) (Some 1) (Some 2)
           [] [] 42 None).
  reflexivity.
Defined.

(** *** Pending rewards, when the read succeeds *)

(** X4. When the contract read succeeds with an amount, [PendingRewards]
    returns the record of the caller's address, the caller's validator id
    and that amount, and logs nothing. When the read reports no error and no
    amount either, [PendingRewards] panics: the zero amount is for failed
    reads only. *)
Theorem PendingRewards_returns_the_amount_read :
  forall (chain : rpc.ChainBridge) (sfc : contracts.SfcContract)
         (opts : ptr bind.CallOpts) (a : common.Address) (v : big.Int)
         (l : logger.Log),
    rpc.SfcContract chain = Returned (Some sfc) ->
    rpc.DefaultCallOpts chain = Returned opts ->
    (forall x,
        contracts.PendingRewards sfc opts a (Some v) = Returned (Some x, None) ->
        rpc.PendingRewards chain (Some a) (Some v) l
        = (Returned (Some (types.mkPendingRewards a v x), None), l))
    /\ (contracts.PendingRewards sfc opts a (Some v) = Returned (None, None) ->
        rpc.PendingRewards chain (Some a) (Some v) l
        = (Panicked NilDereference, l)).
Proof.
  intros chain sfc opts a v l Hc Ho. split.
  - intros x Hr. unfold rpc.PendingRewards.
    erewrite bind_Returned by reflexivity.
    erewrite bind_Returned by reflexivity.
    erewrite bind_Returned
      by (apply (SfcContract_read_Returned chain _ sfc opts); eauto).
    reflexivity.
  - intros Hr. unfold rpc.PendingRewards.
    erewrite bind_Returned by reflexivity.
    erewrite bind_Returned by reflexivity.
    erewrite bind_Returned
      by (apply (SfcContract_read_Returned chain _ sfc opts); eauto).
    reflexivity.
Qed.

Lemma PendingRewards_returns_the_amount_read_witness :
  rpc.PendingRewards sample.quiet_bridge (Some sample.delegator) (Some 1) []
  = (Returned (Some (types.mkPendingRewards sample.delegator 1 7), None), []).
Proof.
  refine (proj1 (PendingRewards_returns_the_amount_read
                   sample.quiet_bridge
                   (sample.sfc sample.seven
                      (sample.lockup (Some 5) (Some 3) (Some 1700000000)
                                     (Some 86400)))
                   (Some sample.opts) sample.delegator 1 [] eq_refl eq_refl)
                7 eq_refl).
Defined.

(** *** Nil arguments *)

(** X5. [AmountStaked], [PendingRewards], [DelegationOutstandingSCoin] and
    [DelegationTokenizerUnlocked] read both arguments before they call
    anything: with a nil address or a nil validator id each of them panics
    on the nil dereference, whatever the bridge is made of, and logs
    nothing. *)
Theorem nil_argument_panics_before_any_call :
  forall (NewSfcTokenizer : common.Address -> ethclient.Client ->
                            outcome (ptr contracts.SfcTokenizer * ptr error))
         (chain : rpc.ChainBridge) (addr : ptr common.Address)
         (valID : ptr big.Int) (l : logger.Log),
    addr = None \/ valID = None ->
    rpc.AmountStaked chain addr valID l = (Panicked NilDereference, l)
    /\ rpc.PendingRewards chain addr valID l = (Panicked NilDereference, l)
    /\ rpc.DelegationOutstandingSCoin NewSfcTokenizer chain addr valID l
       = (Panicked NilDereference, l)
    /\ rpc.DelegationTokenizerUnlocked NewSfcTokenizer chain addr valID l
       = (Panicked NilDereference, l).
Proof.
  intros N chain addr valID l Hnil.
  unfold rpc.AmountStaked, rpc.PendingRewards, rpc.DelegationOutstandingSCoin,
    rpc.DelegationTokenizerUnlocked.
  go_unfold.
  destruct Hnil as [-> | ->]; [|destruct addr]; repeat split.
Qed.

Lemma nil_argument_panics_before_any_call_witness :
  rpc.AmountStaked sample.broken_bridge (Some sample.delegator) None []
  = (Panicked NilDereference, [])
  /\ rpc.PendingRewards sample.broken_bridge (Some sample.delegator) None []
     = (Panicked NilDereference, [])
  /\ rpc.DelegationOutstandingSCoin sample.no_tokenizer sample.broken_bridge
                                    (Some sample.delegator) None []
     = (Panicked NilDereference, [])
  /\ rpc.DelegationTokenizerUnlocked sample.no_tokenizer sample.broken_bridge
                                     (Some sample.delegator) None []
     = (Panicked NilDereference, []).
Proof.
  apply (nil_argument_panics_before_any_call
           sample.no_tokenizer sample.broken_bridge (Some sample.delegator)
           None []).
  right. reflexivity.
Defined.


(** *** Panics of the contract *)

(** X7. Only [DelegationLock] recovers. When the contract read panics,
    [AmountStaked], [AmountStakeLocked], [AmountStakeUnlocked] and
    [PendingRewards] let that very panic through to the caller. *)
Theorem contract_panic_reaches_the_caller :
  forall (chain : rpc.ChainBridge) (sfc : contracts.SfcContract)
         (opts : ptr bind.CallOpts) (a : common.Address) (v : big.Int)
         (p : panic_value) (l : logger.Log),
    rpc.SfcContract chain = Returned (Some sfc) ->
    rpc.DefaultCallOpts chain = Returned opts ->
    (contracts.GetStake sfc opts a (Some v) = Panicked p ->
     fst (rpc.AmountStaked chain (Some a) (Some v) l) = Panicked p)
    /\ (contracts.GetLockedStake sfc opts a (Some v) = Panicked p ->
        fst (rpc.AmountStakeLocked chain (Some a) (Some v) l) = Panicked p)
    /\ (contracts.GetUnlockedStake sfc opts a (Some v) = Panicked p ->
        fst (rpc.AmountStakeUnlocked chain (Some a) (Some v) l) = Panicked p)
    /\ (contracts.PendingRewards sfc opts a (Some v) = Panicked p ->
        fst (rpc.PendingRewards chain (Some a) (Some v) l) = Panicked p).
Proof.
  intros chain sfc opts a v p l Hc Ho. repeat split; intros Hr.
  - unfold rpc.AmountStaked.
    erewrite bind_Returned by reflexivity.
    erewrite bind_Returned by reflexivity.
    erewrite bind_Returned by reflexivity.
    now rewrite (SfcContract_read_Returned chain _ sfc opts a (Some v) _ _
                                           Hc Ho Hr).
  - unfold rpc.AmountStakeLocked.
    now rewrite (SfcContract_read_Returned chain _ sfc opts a (Some v) _ _
                                           Hc Ho Hr).
  - unfold rpc.AmountStakeUnlocked.
    now rewrite (SfcContract_read_Returned chain _ sfc opts a (Some v) _ _
                                           Hc Ho Hr).
  - unfold rpc.PendingRewards.
    erewrite bind_Returned by reflexivity.
    erewrite bind_Returned by reflexivity.
    erewrite bind_Panicked
      by (apply (SfcContract_read_Returned chain _ sfc opts); eauto).
    reflexivity.
Qed.

Lemma contract_panic_reaches_the_caller_witness :
  fst (rpc.PendingRewards
         (sample.bridge
            (sample.sfc (Panicked (PanicWith "index out of range"))
                        (Panicked (PanicWith "unused")))
            (Returned ([], None)))
         (Some sample.delegator) (Some 1) [])
  = Panicked (PanicWith "index out of range").
Proof.
  refine (proj2 (proj2 (proj2
            (contract_panic_reaches_the_caller
               (sample.bridge
                  (sample.sfc (Panicked (PanicWith "index out of range"))
                              (Panicked (PanicWith "unused")))
                  (Returned ([], None)))
               (sample.sfc (Panicked (PanicWith "index out of range"))
                           (Panicked (PanicWith "unused")))
               (Some sample.opts) sample.delegator 1
               (PanicWith "index out of range") [] eq_refl eq_refl)))
            eq_refl).
Defined.

(** *** The delegation lock, on every path *)

(** X8. When [GetLockupInfo] answers with an error, [DelegationLock] logs
    it and returns that error with no record, whatever came with the error
    and whether or not the validator id is nil. *)
Theorem DelegationLock_query_error_is_returned :
  forall (chain : rpc.ChainBridge) (sfc : contracts.SfcContract)
         (opts : ptr bind.CallOpts) (a : common.Address)
         (valID : ptr hexutil.Big) (lock : contracts.LockupInfo) (e : error)
         (l : logger.Log),
    rpc.SfcContract chain = Returned (Some sfc) ->
    rpc.DefaultCallOpts chain = Returned opts ->
    contracts.GetLockupInfo sfc opts a (hexutil.ToInt valID)
    = Returned (lock, Some e) ->
    rpc.DelegationLock chain (Some a) valID l
    = (Returned (None, Some e),
       l ++ [logger.mkEntry logger.ERROR "delegation lock query failed; %v"
               [logger.Err (Some e)]]).
Proof.
  intros chain sfc opts a valID lock e l Hc Ho Hr.
  unfold rpc.DelegationLock, with_recover.
  rewrite (DelegationLock_body_answered chain sfc opts a valID _ _ Hc Ho Hr).
  reflexivity.
Qed.

Lemma DelegationLock_query_error_is_returned_witness :
  rpc.DelegationLock
    (sample.lock_bridge
       (Returned (contracts.mkLockupInfo None None None None, sample.reverted)))
    (Some sample.delegator) None []
  = (Returned (None, Some "execution reverted"),
     [logger.mkEntry logger.ERROR "delegation lock query failed; %v"
        [logger.Err (Some "execution reverted")]]).
Proof.
  apply (DelegationLock_query_error_is_returned
           (sample.lock_bridge
              (Returned (contracts.mkLockupInfo None None None None,
                         sample.reverted)))
           (sample.sfc sample.seven
              (Returned (contracts.mkLockupInfo None None None None,
                         sample.reverted)))
           (Some sample.opts) sample.delegator None
           (contracts.mkLockupInfo None None None None)
           "execution reverted" []);
    reflexivity.
Defined.



(** X10. Every record [DelegationLock] returns has its epoch, its unlock
    time and its duration within 64 bits, whatever numbers the contract
    gave. *)
Theorem DelegationLock_timing_fits_64_bits :
  forall (chain : rpc.ChainBridge) (addr : ptr common.Address)
         (valID : ptr hexutil.Big) (l l' : logger.Log)
         (dl : types.DelegationLock) (err : ptr error),
    rpc.DelegationLock chain addr valID l = (Returned (Some dl, err), l') ->
    0 <= types.LockedFromEpoch dl < 2 ^ 64
    /\ 0 <= types.LockedUntil dl < 2 ^ 64
    /\ 0 <= types.Duration dl < 2 ^ 64.
Proof.
  intros chain addr valID l l' dl err H.
  unfold rpc.DelegationLock, rpc.DelegationLock_body,
    rpc.DelegationLock_recovered, rpc.SfcContract_read, with_recover in H.
  go_unfold. go_split H; inversion H; subst; clear H; cbn;
    unfold big.low64; repeat split;
    try (apply Z.mod_pos_bound; reflexivity); try discriminate;
    try reflexivity.
Qed.

Lemma DelegationLock_timing_fits_64_bits_witness :
  0 <= types.LockedFromEpoch (types.mkDelegationLock 5 1 0 (2 ^ 64 - 1)) < 2 ^ 64
  /\ 0 <= types.LockedUntil (types.mkDelegationLock 5 1 0 (2 ^ 64 - 1)) < 2 ^ 64
  /\ 0 <= types.Duration (types.mkDelegationLock 5 1 0 (2 ^ 64 - 1)) < 2 ^ 64.
Proof.
  apply (DelegationLock_timing_fits_64_bits
           (sample.lock_bridge
              (sample.lockup (Some 5) (Some (2 ^ 64 + 1)) (Some (- 2 ^ 64))
                             (Some (1 - 2 ^ 64))))
           (Some sample.delegator) (Some 1) [] []
           (types.mkDelegationLock 5 1 0 (2 ^ 64 - 1)) None).
  reflexivity.
Defined.



(** *** The tokenizer *)

(** X12. When the tokenizer binding is made and its lock query succeeds,
    [DelegationTokenizerUnlocked] returns the queried boolean with a nil
    error, after its one debug line. *)
Theorem DelegationTokenizerUnlocked_returns_the_lock_status :
  forall (NewSfcTokenizer : common.Address -> ethclient.Client ->
                            outcome (ptr contracts.SfcTokenizer * ptr error))
         (chain : rpc.ChainBridge) (tokenizer : contracts.SfcTokenizer)
         (opts : ptr bind.CallOpts) (a : common.Address) (v : big.Int)
         (lock : bool) (l : logger.Log),
    NewSfcTokenizer (rpc.TokenizerContract (rpc.sfcConfig chain)) (rpc.eth chain)
    = Returned (Some tokenizer, None) ->
    rpc.DefaultCallOpts chain = Returned opts ->
    contracts.AllowedToWithdrawStake tokenizer opts a (Some v)
    = Returned (lock, None) ->
    rpc.DelegationTokenizerUnlocked NewSfcTokenizer chain (Some a) (Some v) l
    = (Returned (lock, None),
       l ++ [logger.mkEntry logger.DEBUG
               "checking SFC tokenizer lock of %s to %d"
               [logger.AddressString a; logger.U64 (big.low64 v)]]).
Proof.
  intros N chain tokenizer opts a v lock l Hn Ho Hq.
  unfold rpc.DelegationTokenizerUnlocked. go_unfold.
  go_step Hn. go_step Ho. go_step Hq. reflexivity.
Qed.

Lemma DelegationTokenizerUnlocked_returns_the_lock_status_witness :
  rpc.DelegationTokenizerUnlocked
    (sample.tokenizer (Returned (true, None)))
    sample.quiet_bridge (Some sample.delegator) (Some 1) []
  = (Returned (true, None),
     [logger.mkEntry logger.DEBUG "checking SFC tokenizer lock of %s to %d"
        [logger.AddressString sample.delegator; logger.U64 1]]).
Proof.
  apply (DelegationTokenizerUnlocked_returns_the_lock_status
           (sample.tokenizer (Returned (true, None)))
           sample.quiet_bridge
           (contracts.mkSfcTokenizer (fun _ _ _ => sample.seven)
                                     (fun _ _ _ => Returned (true, None)))
           (Some sample.opts) sample.delegator 1 true []);
    reflexivity.
Defined.

(** X13. [DelegationTokenizerUnlocked] hands back the error it met as it
    was, with [false] and one critical line after the debug line: the error
    of making the binding (the lock query is then not made), or else the
    error of the lock query. *)
Theorem DelegationTokenizerUnlocked_error_is_returned :
  forall (NewSfcTokenizer : common.Address -> ethclient.Client ->
                            outcome (ptr contracts.SfcTokenizer * ptr error))
         (chain : rpc.ChainBridge) (a : common.Address) (v : big.Int)
         (e : error) (l : logger.Log),
    (forall contract,
        NewSfcTokenizer (rpc.TokenizerContract (rpc.sfcConfig chain))
                        (rpc.eth chain)
        = Returned (contract, Some e) ->
        rpc.DelegationTokenizerUnlocked NewSfcTokenizer chain (Some a) (Some v) l
        = (Returned (false, Some e),
           l ++ [logger.mkEntry logger.DEBUG
                   "checking SFC tokenizer lock of %s to %d"
                   [logger.AddressString a; logger.U64 (big.low64 v)];
                 logger.mkEntry logger.CRITICAL
                   "failed to instantiate SFC Tokenizer contract: %s"
                   [logger.Str e]]))
    /\ (forall tokenizer opts lock,
          NewSfcTokenizer (rpc.TokenizerContract (rpc.sfcConfig chain))
                          (rpc.eth chain)
          = Returned (Some tokenizer, None) ->
          rpc.DefaultCallOpts chain = Returned opts ->
          contracts.AllowedToWithdrawStake tokenizer opts a (Some v)
          = Returned (lock, Some e) ->
          rpc.DelegationTokenizerUnlocked NewSfcTokenizer chain (Some a)
                                          (Some v) l
          = (Returned (false, Some e),
             l ++ [logger.mkEntry logger.DEBUG
                     "checking SFC tokenizer lock of %s to %d"
                     [logger.AddressString a; logger.U64 (big.low64 v)];
                   logger.mkEntry logger.CRITICAL
                     "failed to get SFC Tokenizer lock status of %s to %d; %s"
                     [logger.AddressString a; logger.U64 (big.low64 v);
                      logger.Str e]])).
Proof.
  intros N chain a v e l. split.
  - intros contract Hn.
    unfold rpc.DelegationTokenizerUnlocked. go_unfold.
    go_step Hn. now rewrite <- app_assoc.
  - intros tokenizer opts lock Hn Ho Hq.
    unfold rpc.DelegationTokenizerUnlocked. go_unfold.
    go_step Hn. go_step Ho. go_step Hq. now rewrite <- app_assoc.
Qed.

Lemma DelegationTokenizerUnlocked_error_is_returned_witness :
  rpc.DelegationTokenizerUnlocked sample.no_tokenizer sample.broken_bridge
                                  (Some sample.delegator) (Some 1) []
  = (Returned (false, Some "no contract code at given address"),
     [logger.mkEntry logger.DEBUG "checking SFC tokenizer lock of %s to %d"
        [logger.AddressString sample.delegator; logger.U64 1];
      logger.mkEntry logger.CRITICAL
        "failed to instantiate SFC Tokenizer contract: %s"
        [logger.Str "no contract code at given address"]]).
Proof.
  refine (proj1 (DelegationTokenizerUnlocked_error_is_returned
                   sample.no_tokenizer sample.broken_bridge sample.delegator 1
                   "no contract code at given address" [])
                None eq_refl).
Defined.

(** X14. When the tokenizer binding is made, [DelegationOutstandingSCoin]
    returns exactly what the binding's [OutstandingSCoin] returned, amount
    and error alike, after its one debug line. *)
Theorem DelegationOutstandingSCoin_forwards_the_answer :
  forall (NewSfcTokenizer : common.Address -> ethclient.Client ->
                            outcome (ptr contracts.SfcTokenizer * ptr error))
         (chain : rpc.ChainBridge) (tokenizer : contracts.SfcTokenizer)
         (opts : ptr bind.CallOpts) (a : common.Address) (v : big.Int)
         (amount : ptr big.Int) (err : ptr error) (l : logger.Log),
    NewSfcTokenizer (rpc.TokenizerContract (rpc.sfcConfig chain)) (rpc.eth chain)
    = Returned (Some tokenizer, None) ->
    rpc.DefaultCallOpts chain = Returned opts ->
    contracts.OutstandingSCoin tokenizer opts a (Some v)
    = Returned (amount, err) ->
    rpc.DelegationOutstandingSCoin NewSfcTokenizer chain (Some a) (Some v) l
    = (Returned (amount, err),
       l ++ [logger.mkEntry logger.DEBUG "checking outstanding of %s to %d"
               [logger.AddressString a; logger.U64 (big.low64 v)]]).
Proof.
  intros N chain tokenizer opts a v amount err l Hn Ho Hq.
  unfold rpc.DelegationOutstandingSCoin. go_unfold.
  go_step Hn. go_step Ho. go_step Hq. reflexivity.
Qed.

Lemma DelegationOutstandingSCoin_forwards_the_answer_witness :
  rpc.DelegationOutstandingSCoin
    (sample.tokenizer (Returned (true, None)))
    sample.quiet_bridge (Some sample.delegator) (Some 1) []
  = (Returned (Some 7, None),
     [logger.mkEntry logger.DEBUG "checking outstanding of %s to %d"
        [logger.AddressString sample.delegator; logger.U64 1]]).
Proof.
  apply (DelegationOutstandingSCoin_forwards_the_answer
           (sample.tokenizer (Returned (true, None)))
           sample.quiet_bridge
           (contracts.mkSfcTokenizer (fun _ _ _ => sample.seven)
                                     (fun _ _ _ => Returned (true, None)))
           (Some sample.opts) sample.delegator 1 (Some 7) None []);
    reflexivity.
Defined.

(** X15. When the tokenizer binding cannot be made,
    [DelegationOutstandingSCoin] logs that and returns the constructor's
    error with a nil amount; the bridge's call options are not even asked
    for. *)
Theorem DelegationOutstandingSCoin_binding_error_is_returned :
  forall (NewSfcTokenizer : common.Address -> ethclient.Client ->
                            outcome (ptr contracts.SfcTokenizer * ptr error))
         (chain : rpc.ChainBridge) (contract : ptr contracts.SfcTokenizer)
         (a : common.Address) (v : big.Int) (e : error) (l : logger.Log),
    NewSfcTokenizer (rpc.TokenizerContract (rpc.sfcConfig chain)) (rpc.eth chain)
    = Returned (contract, Some e) ->
    rpc.DelegationOutstandingSCoin NewSfcTokenizer chain (Some a) (Some v) l
    = (Returned (None, Some e),
       l ++ [logger.mkEntry logger.DEBUG "checking outstanding of %s to %d"
               [logger.AddressString a; logger.U64 (big.low64 v)];
             logger.mkEntry logger.CRITICAL
               "failed to instantiate SFC Tokenizer contract; %s"
               [logger.Str e]]).
Proof.
  intros N chain contract a v e l Hn.
  unfold rpc.DelegationOutstandingSCoin. go_unfold.
  go_step Hn. now rewrite <- app_assoc.
Qed.

Lemma DelegationOutstandingSCoin_binding_error_is_returned_witness :
  rpc.DelegationOutstandingSCoin sample.no_tokenizer sample.broken_bridge
                                 (Some sample.delegator) (Some 1) []
  = (Returned (None, Some "no contract code at given address"),
     [logger.mkEntry logger.DEBUG "checking outstanding of %s to %d"
        [logger.AddressString sample.delegator; logger.U64 1];
      logger.mkEntry logger.CRITICAL
        "failed to instantiate SFC Tokenizer contract; %s"
        [logger.Str "no contract code at given address"]]).
Proof.
  apply (DelegationOutstandingSCoin_binding_error_is_returned
           sample.no_tokenizer sample.broken_bridge None sample.delegator 1
           "no contract code at given address" []).
  reflexivity.
Defined.

(** X16. A constructor that reports no error and gives no binding either
    makes both tokenizer methods panic on the nil binding, after the debug
    line and after the call options were fetched. *)
Theorem tokenizer_methods_panic_on_nil_binding :
  forall (NewSfcTokenizer : common.Address -> ethclient.Client ->
                            outcome (ptr contracts.SfcTokenizer * ptr error))
         (chain : rpc.ChainBridge) (opts : ptr bind.CallOpts)
         (a : common.Address) (v : big.Int) (l : logger.Log),
    NewSfcTokenizer (rpc.TokenizerContract (rpc.sfcConfig chain)) (rpc.eth chain)
    = Returned (None, None) ->
    rpc.DefaultCallOpts chain = Returned opts ->
    rpc.DelegationOutstandingSCoin NewSfcTokenizer chain (Some a) (Some v) l
    = (Panicked NilDereference,
       l ++ [logger.mkEntry logger.DEBUG "checking outstanding of %s to %d"
               [logger.AddressString a; logger.U64 (big.low64 v)]])
    /\ rpc.DelegationTokenizerUnlocked NewSfcTokenizer chain (Some a) (Some v) l
       = (Panicked NilDereference,
          l ++ [logger.mkEntry logger.DEBUG
                  "checking SFC tokenizer lock of %s to %d"
                  [logger.AddressString a; logger.U64 (big.low64 v)]]).
Proof.
  intros N chain opts a v l Hn Ho.
  unfold rpc.DelegationOutstandingSCoin, rpc.DelegationTokenizerUnlocked.
  go_unfold. go_step Hn. go_step Ho. split; reflexivity.
Qed.

Lemma tokenizer_methods_panic_on_nil_binding_witness :
  rpc.DelegationOutstandingSCoin
    (fun _ _ => Returned (None, None)) sample.quiet_bridge
    (Some sample.delegator) (Some 1) []
  = (Panicked NilDereference,
     [logger.mkEntry logger.DEBUG "checking outstanding of %s to %d"
        [logger.AddressString sample.delegator; logger.U64 1]])
  /\ rpc.DelegationTokenizerUnlocked
       (fun _ _ => Returned (None, None)) sample.quiet_bridge
       (Some sample.delegator) (Some 1) []
     = (Panicked NilDereference,
        [logger.mkEntry logger.DEBUG "checking SFC tokenizer lock of %s to %d"
           [logger.AddressString sample.delegator; logger.U64 1]]).
Proof.
  apply (tokenizer_methods_panic_on_nil_binding
           (fun _ _ => Returned (None, None)) sample.quiet_bridge
           (Some sample.opts) sample.delegator 1 []);
    reflexivity.
Defined.
